(** * ROI editor of vehicle-analytics: a shallow embedding

    Source: [frontend/src/pages/ROISetup.jsx].  The file exists in two
    variants in the repository:

    - the camera-keyed editor (module [Primary]): camera selection,
      snapshot and existing-ROI fetch, drawing with corner normalisation,
      validation, [PUT /cameras/:id/roi] with a normalised body;
    - the gate-keyed editor (module [Legacy]): a fixed demo camera, no
      validation, [POST /rois/] with two absolute pixel corners.

    Numbers.  JavaScript numbers are modelled by exact rationals [Q]: the
    model covers finite values and ignores binary64 rounding, [NaN] and
    the infinities.  The snapshot is an image that has been decoded
    ([img.onload] has fired): its [width] and [height] are positive
    integers, so the quotients by them are those of JavaScript and every
    number the editor computes from finite inputs is finite.

    Asynchrony.  The component is single threaded; a handler runs to
    completion and the only suspension points are the [await]s on network
    calls.  Each handler is a function from the React state to a new state
    and the list of effects it emits; a response is a separate event, so
    that arbitrary interleavings of operator gestures and responses are
    traces of the machine [Primary.step]. *)

From Stdlib Require Import ZArith QArith Qabs Qminmax Lqa Lia List Bool String.
Import ListNotations.

Local Open Scope Q_scope.

(** ** JavaScript comparisons on numbers *)

(** [a < b] *)
Definition ltb (a b : Q) : bool := negb (Qle_bool b a).

(** [a <= b] *)
Definition leb (a b : Q) : bool := Qle_bool a b.

(** [a > b] *)
Definition gtb (a b : Q) : bool := ltb b a.

(** ** Data *)

(** A rectangle in pixels of the snapshot: [{ x, y, width, height }]. *)
Module Px.
Record t : Type := mk { x : Q; y : Q; width : Q; height : Q }.

(** Field-wise equality of the numbers held. *)
Definition equiv (a b : t) : Prop :=
  x a == x b /\ y a == y b /\ width a == width b /\ height a == height b.
End Px.

(** A rectangle relative to the snapshot's size: [{ x, y, w, h }]. *)
Module Nz.
Record t : Type := mk { x : Q; y : Q; w : Q; h : Q }.

Definition equiv (a b : t) : Prop :=
  x a == x b /\ y a == y b /\ w a == w b /\ h a == h b.
End Nz.

(** The loaded image: only its pixel size is read by the editor. *)
Module Img.
Record t : Type := mk { width : positive; height : positive }.
End Img.

(** A pointer position, as returned by [getPointerPosition()]. *)
Record Point : Type := mkPoint { px : Q; py : Q }.

(** What the two alerts of the validation say. *)
Definition msg_within : string := "ROI must be within the image bounds.".
Definition msg_fit : string := "ROI must fit within the image bounds.".
Definition msg_saved : string := "ROI saved".
Definition msg_failed : string := "Failed to save ROI".

(** ** Pure parts of the camera-keyed editor *)

(** [normalizeRect], lines 67-74. *)
Definition normalizeRect (raw : option Px.t) : option Px.t :=
  match raw with
  | None => None
  | Some raw =>
      let x := Qmin (Px.x raw) (Px.x raw + Px.width raw) in
      let y := Qmin (Px.y raw) (Px.y raw + Px.height raw) in
      let width := Qabs (Px.width raw) in
      let height := Qabs (Px.height raw) in
      Some (Px.mk x y width height)
  end.

(** The object [normalized] built by [handleSave], lines 95-100. *)
Definition toNormalized (rect : Px.t) (snapshot : Img.t) : Nz.t :=
  Nz.mk (Px.x rect / inject_Z (Z.pos (Img.width snapshot)))
        (Px.y rect / inject_Z (Z.pos (Img.height snapshot)))
        (Px.width rect / inject_Z (Z.pos (Img.width snapshot)))
        (Px.height rect / inject_Z (Z.pos (Img.height snapshot))).

(** The rectangle set by the effect on [snapshot, roiNormalized],
    lines 59-64. *)
Definition toPixel (roiNormalized : Nz.t) (snapshot : Img.t) : Px.t :=
  Px.mk (Nz.x roiNormalized * inject_Z (Z.pos (Img.width snapshot)))
        (Nz.y roiNormalized * inject_Z (Z.pos (Img.height snapshot)))
        (Nz.w roiNormalized * inject_Z (Z.pos (Img.width snapshot)))
        (Nz.h roiNormalized * inject_Z (Z.pos (Img.height snapshot))).

(** The two guards of [handleSave], lines 101-108: [Rejected m] is the
    branch that alerts [m] and returns. *)
Inductive Verdict : Type :=
| Ok
| Rejected (reason : string).

Definition validate (normalized : Nz.t) : Verdict :=
  if ltb (Nz.x normalized) 0 || ltb (Nz.y normalized) 0
     || leb (Nz.w normalized) 0 || leb (Nz.h normalized) 0
  then Rejected msg_within
  else if gtb (Nz.x normalized + Nz.w normalized) 1
          || gtb (Nz.y normalized + Nz.h normalized) 1
  then Rejected msg_fit
  else Ok.

(** Equality of the bodies of two requests is decidable; the machine uses
    it to match a response with the request it answers. *)
Definition Q_eq_dec (a b : Q) : {a = b} + {a <> b}.
Proof. decide equality; [apply Pos.eq_dec | apply Z.eq_dec]. Defined.

Definition Nz_eq_dec (a b : Nz.t) : {a = b} + {a <> b}.
Proof. decide equality; apply Q_eq_dec. Defined.

(** ** The camera-keyed editor (first variant of ROISetup.jsx) *)

Module Primary.

Record Camera : Type := mkCamera { id : Z; name : string }.

(** The [useState] cells of the component, lines 7-12. *)
Record State : Type := mkState {
  cameras : list Camera;
  selectedCameraId : option Z;
  snapshot : option Img.t;
  rect : option Px.t;
  isDrawing : bool;
  roiNormalized : option Nz.t
}.

Definition initial : State := mkState [] None None None false None.

Definition setCameras (v : list Camera) (s : State) : State :=
  mkState v (selectedCameraId s) (snapshot s) (rect s) (isDrawing s)
          (roiNormalized s).

Definition setSelectedCameraId (v : option Z) (s : State) : State :=
  mkState (cameras s) v (snapshot s) (rect s) (isDrawing s) (roiNormalized s).

Definition setSnapshot (v : option Img.t) (s : State) : State :=
  mkState (cameras s) (selectedCameraId s) v (rect s) (isDrawing s)
          (roiNormalized s).

Definition setRect (v : option Px.t) (s : State) : State :=
  mkState (cameras s) (selectedCameraId s) (snapshot s) v (isDrawing s)
          (roiNormalized s).

Definition setIsDrawing (v : bool) (s : State) : State :=
  mkState (cameras s) (selectedCameraId s) (snapshot s) (rect s) v
          (roiNormalized s).

Definition setRoiNormalized (v : option Nz.t) (s : State) : State :=
  mkState (cameras s) (selectedCameraId s) (snapshot s) (rect s) (isDrawing s) v.

(** What a handler does to the outside. *)
Inductive Effect : Type :=
| GetCameras
| GetSnapshot (cam : Z)
| GetRoi (cam : Z)
| PutRoi (cam : Z) (body : Nz.t) (coordinate_type : string)
| Alert (msg : string)
| ConsoleError (what : string).

(** The effect on [selectedCameraId], lines 31-55: the three resets and
    the two fetches, whose URLs hold the identifier read at this point.
    [!selectedCameraId] is true for [null] and for [0]. *)
Definition onSelectedCameraId (s : State) : State * list Effect :=
  match selectedCameraId s with
  | Some cam =>
      if (cam =? 0)%Z then (s, [])
      else (setRoiNormalized None (setRect None (setSnapshot None s)),
            [GetSnapshot cam; GetRoi cam])
  | None => (s, [])
  end.

(** The effect on [snapshot, roiNormalized], lines 57-65. *)
Definition onSnapshotOrRoi (s : State) : State :=
  match snapshot s, roiNormalized s with
  | Some img, Some roi => setRect (Some (toPixel roi img)) s
  | _, _ => s
  end.

(** [setSelectedCameraId(v)]: React keeps the state and runs no effect
    when the new value is the one already held. *)
Definition selectCamera (cam : Z) (s : State) : State * list Effect :=
  match selectedCameraId s with
  | Some old =>
      if (old =? cam)%Z then (s, [])
      else onSelectedCameraId (setSelectedCameraId (Some cam) s)
  | None => onSelectedCameraId (setSelectedCameraId (Some cam) s)
  end.

(** Completion of [loadCameras], lines 18-23. *)
Definition camerasLoaded (cams : list Camera) (s : State)
  : State * list Effect :=
  match cams with
  | [] => (setCameras cams s, [])
  | c :: _ => selectCamera (id c) (setCameras cams s)
  end.

(** [img.onload] of [fetchSnapshot], line 40. *)
Definition snapshotLoaded (img : Img.t) (s : State) : State :=
  onSnapshotOrRoi (setSnapshot (Some img) s).

(** Success of [fetchRoi], line 46. *)
Definition roiLoaded (roi : Nz.t) (s : State) : State :=
  onSnapshotOrRoi (setRoiNormalized (Some roi) s).

(** Failure of [fetchRoi], lines 47-51: [status] is [err.response?.status]. *)
Definition roiFailed (status : option Z) : list Effect :=
  match status with
  | Some code =>
      if (code =? 404)%Z then [] else [ConsoleError "roi load error"]
  | None => [ConsoleError "roi load error"]
  end.

(** Lines 76-81. *)
Definition handleMouseDown (p : Point) (s : State) : State :=
  match snapshot s with
  | None => s
  | Some _ => setRect (Some (Px.mk (px p) (py p) 0 0)) (setIsDrawing true s)
  end.

(** Lines 82-86. *)
Definition handleMouseMove (p : Point) (s : State) : State :=
  match rect s with
  | None => s
  | Some r =>
      if isDrawing s
      then setRect (Some (Px.mk (Px.x r) (Px.y r)
                                (px p - Px.x r) (py p - Px.y r))) s
      else s
  end.

(** Lines 87-91. *)
Definition handleMouseUp (s : State) : State :=
  match rect s with
  | None => s
  | Some _ => setRect (normalizeRect (rect s)) (setIsDrawing false s)
  end.

(** [onDragEnd] of the rectangle, lines 191-194; the rectangle is on the
    stage only when [rect] is set and is draggable only when not drawing. *)
Definition handleDragEnd (p : Point) (s : State) : State :=
  match rect s with
  | None => s
  | Some r =>
      if isDrawing s then s
      else setRect (Some (Px.mk (px p) (py p) (Px.width r) (Px.height r))) s
  end.

(** Lines 122-125. *)
Definition handleClear (s : State) : State :=
  setRoiNormalized None (setRect None s).

(** The readout under the stage, lines 128-135. *)
Definition normalizedValues (s : State) : option Nz.t :=
  match rect s, snapshot s with
  | Some r, Some img =>
      Some (Nz.mk (Px.x r / inject_Z (Z.pos (Img.width img)))
                  (Px.y r / inject_Z (Z.pos (Img.height img)))
                  (Px.width r / inject_Z (Z.pos (Img.width img)))
                  (Px.height r / inject_Z (Z.pos (Img.height img))))
  | _, _ => None
  end.

(** [handleSave] up to its [await], lines 93-110; the first guard leaves
    on a missing rectangle, a missing snapshot, and on a camera identifier
    that is [null] or [0]. *)
Inductive SaveStart : Type :=
| Skip
| Abort (msg : string)
| Send (cam : Z) (normalized : Nz.t).

Definition handleSave_start (s : State) : SaveStart :=
  match rect s, snapshot s, selectedCameraId s with
  | Some r, Some img, Some cam =>
      if (cam =? 0)%Z then Skip
      else
        let normalized := toNormalized r img in
        match validate normalized with
        | Rejected m => Abort m
        | Ok => Send cam normalized
        end
  | _, _, _ => Skip
  end.

(** How the [PUT] ends: acknowledged, or rejected with
    [err.response?.data?.detail]. *)
Inductive PutOutcome : Type :=
| Acked
| Failed (detail : option string).

(** [detail || 'Failed to save ROI'] *)
Definition failureText (detail : option string) : string :=
  match detail with
  | Some d => if String.eqb d "" then msg_failed else d
  | None => msg_failed
  end.

(** [handleSave] after its [await], lines 114-119, on the state of that
    moment. *)
Definition handleSave_settle (normalized : Nz.t) (o : PutOutcome) (s : State)
  : State * list Effect :=
  match o with
  | Acked =>
      (onSnapshotOrRoi (setRoiNormalized (Some normalized) s), [Alert msg_saved])
  | Failed detail =>
      (s, [ConsoleError "roi save error"; Alert (failureText detail)])
  end.

(** [handleSave] run from the click to the end, nothing else happening
    while the [PUT] is outstanding; [put] is the persistence endpoint. *)
Definition handleSave (put : Z -> Nz.t -> PutOutcome) (s : State)
  : State * list Effect :=
  match handleSave_start s with
  | Skip => (s, [])
  | Abort m => (s, [Alert m])
  | Send cam normalized =>
      let r := handleSave_settle normalized (put cam normalized) s in
      (fst r, PutRoi cam normalized "normalized" :: snd r)
  end.

(** *** The editor as a machine over events *)

(** A request that has been issued and not answered yet. *)
Inductive Request : Type :=
| ReqCameras
| ReqSnapshot (cam : Z)
| ReqRoi (cam : Z)
| ReqPut (cam : Z) (body : Nz.t).

Definition Request_eq_dec (a b : Request) : {a = b} + {a <> b}.
Proof. decide equality; try apply Z.eq_dec; apply Nz_eq_dec. Defined.

Definition requestOf (e : Effect) : list Request :=
  match e with
  | GetCameras => [ReqCameras]
  | GetSnapshot cam => [ReqSnapshot cam]
  | GetRoi cam => [ReqRoi cam]
  | PutRoi cam body _ => [ReqPut cam body]
  | Alert _ | ConsoleError _ => []
  end.

(** Removes one occurrence of [q]; [None] when there is none. *)
Fixpoint answer (q : Request) (l : list Request) : option (list Request) :=
  match l with
  | [] => None
  | q' :: l' =>
      if Request_eq_dec q q' then Some l'
      else match answer q l' with
           | Some r => Some (q' :: r)
           | None => None
           end
  end.

(** Operator gestures and network responses.  A response names the
    camera of the request it answers: that is the identifier the request
    URL was built from when it was issued. *)
Inductive Event : Type :=
| CamerasLoaded (cams : list Camera)
| CamerasFailed
| SelectCamera (cam : Z)
| SnapshotLoaded (cam : Z) (img : Img.t)
| SnapshotFailed (cam : Z)
| RoiLoaded (cam : Z) (roi : Nz.t)
| RoiFailed (cam : Z) (status : option Z)
| MouseDown (p : Point)
| MouseMove (p : Point)
| MouseUp
| DragEnd (p : Point)
| ClickSave
| SaveSettled (cam : Z) (body : Nz.t) (o : PutOutcome)
| ClickClear.

(** The component together with the network.  [snapshotOf] and [roiOf]
    are not program state: they record which camera's response wrote the
    snapshot and the cached ROI now held. *)
Record World : Type := mkWorld {
  ui : State;
  inflight : list Request;
  log : list Effect;
  snapshotOf : option Z;
  roiOf : option Z
}.

(** After mount: [loadCameras] has been called. *)
Definition mounted : World :=
  mkWorld initial [ReqCameras] [GetCameras] None None.

(** The request an event answers, if it is a response. *)
Definition answers (e : Event) : option Request :=
  match e with
  | CamerasLoaded _ | CamerasFailed => Some ReqCameras
  | SnapshotLoaded cam _ | SnapshotFailed cam => Some (ReqSnapshot cam)
  | RoiLoaded cam _ | RoiFailed cam _ => Some (ReqRoi cam)
  | SaveSettled cam body _ => Some (ReqPut cam body)
  | _ => None
  end.

(** The handler an event runs. *)
Definition handle (e : Event) (s : State) : State * list Effect :=
  match e with
  | CamerasLoaded cams => camerasLoaded cams s
  | CamerasFailed => (s, [ConsoleError "camera list error"])
  | SelectCamera cam => selectCamera cam s
  | SnapshotLoaded _ img => (snapshotLoaded img s, [])
  | SnapshotFailed _ => (s, [])
  | RoiLoaded _ roi => (roiLoaded roi s, [])
  | RoiFailed _ status => (s, roiFailed status)
  | MouseDown p => (handleMouseDown p s, [])
  | MouseMove p => (handleMouseMove p s, [])
  | MouseUp => (handleMouseUp s, [])
  | DragEnd p => (handleDragEnd p s, [])
  | ClickSave =>
      match handleSave_start s with
      | Skip => (s, [])
      | Abort m => (s, [Alert m])
      | Send cam normalized => (s, [PutRoi cam normalized "normalized"])
      end
  | SaveSettled _ body o => handleSave_settle body o s
  | ClickClear => (handleClear s, [])
  end.

Definition snapshotWriter (e : Event) (s' : State) (old : option Z)
  : option Z :=
  match snapshot s' with
  | None => None
  | Some _ =>
      match e with
      | SnapshotLoaded cam _ => Some cam
      | _ => old
      end
  end.

Definition roiWriter (e : Event) (s' : State) (old : option Z) : option Z :=
  match roiNormalized s' with
  | None => None
  | Some _ =>
      match e with
      | RoiLoaded cam _ => Some cam
      | SaveSettled cam _ Acked => Some cam
      | _ => old
      end
  end.

(** One event.  A response is possible only for a request in flight,
    which it consumes. *)
Definition step (w : World) (e : Event) : option World :=
  let pending :=
    match answers e with
    | Some q => answer q (inflight w)
    | None => Some (inflight w)
    end in
  match pending with
  | None => None
  | Some rest =>
      let r := handle e (ui w) in
      Some (mkWorld (fst r)
                    (flat_map requestOf (snd r) ++ rest)
                    (log w ++ snd r)
                    (snapshotWriter e (fst r) (snapshotOf w))
                    (roiWriter e (fst r) (roiOf w)))
  end.

Fixpoint run (w : World) (es : list Event) : option World :=
  match es with
  | [] => Some w
  | e :: es' =>
      match step w e with
      | Some w' => run w' es'
      | None => None
      end
  end.

(** A response is timely when it answers a request issued for the camera
    that is selected when it arrives. *)
Definition timely (s : State) (e : Event) : Prop :=
  match e with
  | SnapshotLoaded cam _ | RoiLoaded cam _ | SaveSettled cam _ _ =>
      selectedCameraId s = Some cam
  | _ => True
  end.

Fixpoint allTimely (w : World) (es : list Event) : Prop :=
  match es with
  | [] => True
  | e :: es' =>
      timely (ui w) e /\
      match step w e with
      | Some w' => allTimely w' es'
      | None => True
      end
  end.

(** The snapshot and the cached ROI held were written by responses for
    the selected camera.  A selection of [0] is not a selection for the
    component: it resets nothing and fetches nothing. *)
Definition owned (w : World) : Prop :=
  forall cam,
    selectedCameraId (ui w) = Some cam -> cam <> 0%Z ->
    (snapshot (ui w) <> None -> snapshotOf w = Some cam) /\
    (roiNormalized (ui w) <> None -> roiOf w = Some cam).

End Primary.

(** ** The gate-keyed editor (second variant of ROISetup.jsx) *)

Module Legacy.

Definition cameraId : Z := 1.
Definition gateId : Z := 1.

Record State : Type := mkState {
  snapshot : option Img.t;
  rect : option Px.t
}.

Definition initial : State := mkState None None.

(** [GetSnapshot] is issued once, on mount. *)
Inductive Effect : Type :=
| GetSnapshot (cam : Z)
| PostRois (gate_id camera_id : Z) (shape : string)
           (coordinates : list (Q * Q))
| Alert (msg : string).

Definition handleMouseDown (p : Point) (s : State) : State :=
  mkState (snapshot s) (Some (Px.mk (px p) (py p) 0 0)).

Definition handleMouseMove (p : Point) (s : State) : State :=
  match rect s with
  | None => s
  | Some r =>
      mkState (snapshot s)
              (Some (Px.mk (Px.x r) (Px.y r) (px p - Px.x r) (py p - Px.y r)))
  end.

(** [const handleMouseUp = () => {};] *)
Definition handleMouseUp (s : State) : State := s.

(** [handleSave]; [post] tells whether [POST /rois/] succeeds.  On a
    failure the [await] throws and nothing more runs. *)
Definition handleSave (post : list (Q * Q) -> bool) (s : State)
  : State * list Effect :=
  match rect s with
  | None => (s, [])
  | Some r =>
      let coords := [ (Px.x r, Px.y r);
                      (Px.x r + Px.width r, Px.y r + Px.height r) ] in
      (s, PostRois gateId cameraId "rectangle" coords
          :: (if post coords then [Alert msg_saved] else []))
  end.

Inductive Event : Type :=
| SnapshotLoaded (img : Img.t)
| MouseDown (p : Point)
| MouseMove (p : Point)
| MouseUp.

(** The stage, which carries the three mouse handlers, is rendered only
    under [snapshot &&]: without a snapshot no mouse event reaches them. *)
Definition step (s : State) (e : Event) : option State :=
  match e with
  | SnapshotLoaded img => Some (mkState (Some img) (rect s))
  | MouseDown p =>
      match snapshot s with
      | Some _ => Some (handleMouseDown p s)
      | None => None
      end
  | MouseMove p =>
      match snapshot s with
      | Some _ => Some (handleMouseMove p s)
      | None => None
      end
  | MouseUp =>
      match snapshot s with
      | Some _ => Some (handleMouseUp s)
      | None => None
      end
  end.

Fixpoint run (s : State) (es : list Event) : option State :=
  match es with
  | [] => Some s
  | e :: es' =>
      match step s e with
      | Some s' => run s' es'
      | None => None
      end
  end.

End Legacy.

(** ** Notions the statements use *)

(** A drawing gesture on the camera-keyed editor: press at [p], the
    pointer moves through [moves], release. *)
Definition gesture (p : Point) (moves : list Point) (s : Primary.State)
  : Primary.State :=
  Primary.handleMouseUp
    (fold_left (fun st q => Primary.handleMouseMove q st) moves
               (Primary.handleMouseDown p s)).


(** Where the pointer is when the button is released. *)
Definition releasePoint (p : Point) (moves : list Point) : Point :=
  last moves p.

(** Two states of one editing session: same selection, same snapshot,
    same cached ROI. *)
Definition sameSession (s s' : Primary.State) : Prop :=
  Primary.selectedCameraId s' = Primary.selectedCameraId s /\
  Primary.snapshot s' = Primary.snapshot s /\
  Primary.roiNormalized s' = Primary.roiNormalized s.


(** The three ways a normalised rectangle can be wrong. *)
Definition originOut (n : Nz.t) : Prop := Nz.x n < 0 \/ Nz.y n < 0.
Definition degenerate (n : Nz.t) : Prop := Nz.w n <= 0 \/ Nz.h n <= 0.
Definition farEdge (n : Nz.t) : Prop :=
  1 < Nz.x n + Nz.w n \/ 1 < Nz.y n + Nz.h n.



(** ** Concrete inputs *)

(** Wrong at the origin only, and of zero width only. *)
Definition originOnly : Nz.t := Nz.mk (-1 # 10) 0 (1 # 2) (1 # 2).
Definition degenerateOnly : Nz.t := Nz.mk 0 0 0 (1 # 2).

(** An 800 by 600 snapshot, a press at (50,50) and a release at (10,20). *)
Definition img800 : Img.t := Img.mk 800 600.

Definition loadedPrimary : Primary.State :=
  Primary.mkState [] (Some 1%Z) (Some img800) None false None.



(** States and endpoints used to run [handleSave]. *)
Definition drawnPrimary : Primary.State :=
  Primary.mkState [] (Some 1%Z) (Some img800)
                  (Some (Px.mk 80 60 160 120)) false None.

Definition putFails (cam : Z) (body : Nz.t) : Primary.PutOutcome :=
  Primary.Failed (Some "ROI rejected"%string).

Definition putAcks (cam : Z) (body : Nz.t) : Primary.PutOutcome :=
  Primary.Acked.

Definition postAcks (coordinates : list (Q * Q)) : bool := true.

(** Two cameras; the operator switches from the first to the second
    while the first snapshot is still being fetched, and the first
    snapshot arrives last. *)
Definition cam1 : Primary.Camera := Primary.mkCamera 1 "gate A".
Definition cam2 : Primary.Camera := Primary.mkCamera 2 "gate B".
Definition img1 : Img.t := Img.mk 800 600.
Definition img2 : Img.t := Img.mk 1280 720.

Definition roi1 : Nz.t := Nz.mk (1 # 10) (1 # 10) (2 # 10) (2 # 10).

Definition switchTrace : list Primary.Event :=
  [Primary.CamerasLoaded [cam1; cam2];
   Primary.SelectCamera 2;
   Primary.SnapshotLoaded 2 img2].

Definition staleTrace : list Primary.Event :=
  switchTrace ++ [Primary.SnapshotLoaded 1 img1; Primary.RoiLoaded 1 roi1].

Definition switchWorld : Primary.World :=
  Eval vm_compute in
    match Primary.run Primary.mounted switchTrace with
    | Some w => w
    | None => Primary.mounted
    end.

Definition staleWorld : Primary.World :=
  Eval vm_compute in
    match Primary.run Primary.mounted staleTrace with
    | Some w => w
    | None => Primary.mounted
    end.

(** The same session with each response arriving before the switch. *)
Definition timelyTrace : list Primary.Event :=
  [Primary.CamerasLoaded [cam1; cam2];
   Primary.SnapshotLoaded 1 img1;
   Primary.RoiFailed 1 (Some 404%Z);
   Primary.SelectCamera 2;
   Primary.SnapshotLoaded 2 img2].

Definition timelyWorld : Primary.World :=
  Eval vm_compute in
    match Primary.run Primary.mounted timelyTrace with
    | Some w => w
    | None => Primary.mounted
    end.

(** A session that draws a rectangle and saves it. *)
Definition savingTrace : list Primary.Event :=
  [Primary.CamerasLoaded [cam1; cam2];
   Primary.SnapshotLoaded 1 img1;
   Primary.RoiFailed 1 (Some 404%Z);
   Primary.MouseDown (mkPoint 80 60);
   Primary.MouseMove (mkPoint 240 180);
   Primary.MouseUp;
   Primary.ClickSave].

Definition savedWorld : Primary.World :=
  Eval vm_compute in
    match Primary.run Primary.mounted savingTrace with
    | Some w => w
    | None => Primary.mounted
    end.

(** ** More of the component *)

(** [cameras.find((cam) => cam.id === selectedCameraId)], line 127: the
    camera named in the badge and whose RTSP address is shown. *)
Definition selectedCamera (s : Primary.State) : option Primary.Camera :=
  match Primary.selectedCameraId s with
  | Some sel =>
      find (fun cam => (Primary.id cam =? sel)%Z) (Primary.cameras s)
  | None => None
  end.

(** The camera a request is made for is never [0]. *)
Definition forCamera (e : Primary.Effect) : Prop :=
  match e with
  | Primary.GetSnapshot cam | Primary.GetRoi cam | Primary.PutRoi cam _ _ =>
      cam <> 0%Z
  | _ => True
  end.

(** The pointer moves through [moves], no button event. *)
Definition pointerMoves (moves : list Point) (s : Primary.State)
  : Primary.State :=
  fold_left (fun st q => Primary.handleMouseMove q st) moves s.



(** A camera is selected and its snapshot is loaded. *)
Definition ready (s : Primary.State) (cam : Z) (img : Img.t) : Prop :=
  Primary.selectedCameraId s = Some cam /\ cam <> 0%Z /\
  Primary.snapshot s = Some img.

Definition cornerA : Point := mkPoint 80 60.
Definition cornerB : Point := mkPoint 240 180.

Definition drawingPrimary : Primary.State :=
  Primary.mkState [cam1; cam2] (Some 1%Z) (Some img1)
                  (Some (Px.mk 80 60 20 20)) true None.


(** ** Arithmetic facts used below *)

Lemma ltb_true (a b : Q) : ltb a b = true <-> a < b.
Proof.
  unfold ltb. rewrite negb_true_iff.
  split.
  - intro H. apply Qnot_le_lt. intro L.
    apply Qle_bool_iff in L. congruence.
  - intro H. destruct (Qle_bool b a) eqn:E; [|reflexivity].
    apply Qle_bool_iff in E. exfalso. apply (Qlt_not_le _ _ H E).
Qed.

Lemma ltb_false (a b : Q) : ltb a b = false <-> b <= a.
Proof.
  unfold ltb. rewrite negb_false_iff. apply Qle_bool_iff.
Qed.

Lemma leb_true (a b : Q) : leb a b = true <-> a <= b.
Proof. apply Qle_bool_iff. Qed.

Lemma leb_false (a b : Q) : leb a b = false <-> b < a.
Proof.
  unfold leb. split.
  - intro H. apply Qnot_le_lt. intro L.
    apply Qle_bool_iff in L. congruence.
  - intro H. destruct (Qle_bool a b) eqn:E; [|reflexivity].
    apply Qle_bool_iff in E. exfalso. apply (Qlt_not_le _ _ H E).
Qed.

Lemma gtb_true (a b : Q) : gtb a b = true <-> b < a.
Proof. apply ltb_true. Qed.

Lemma gtb_false (a b : Q) : gtb a b = false <-> a <= b.
Proof. apply ltb_false. Qed.

Ltac cmp :=
  repeat match goal with
  | H : ltb _ _ = true |- _ => apply ltb_true in H
  | H : ltb _ _ = false |- _ => apply ltb_false in H
  | H : leb _ _ = true |- _ => apply leb_true in H
  | H : leb _ _ = false |- _ => apply leb_false in H
  | H : gtb _ _ = true |- _ => apply gtb_true in H
  | H : gtb _ _ = false |- _ => apply gtb_false in H
  end.

Lemma msg_within_fit : msg_within <> msg_fit.
Proof. unfold msg_within, msg_fit. discriminate. Qed.




(** ** The validation *)

(** Which branch of the validation a rectangle takes. *)
Lemma validate_cases (n : Nz.t) :
  (validate n = Rejected msg_within /\ (originOut n \/ degenerate n)) \/
  (validate n = Rejected msg_fit /\
     ~ originOut n /\ ~ degenerate n /\ farEdge n) \/
  (validate n = Ok /\ ~ originOut n /\ ~ degenerate n /\ ~ farEdge n).
Proof.
  unfold validate, originOut, degenerate, farEdge.
  destruct (ltb (Nz.x n) 0) eqn:E1; cmp; simpl; [left; split; auto|].
  destruct (ltb (Nz.y n) 0) eqn:E2; cmp; simpl; [left; split; auto|].
  destruct (leb (Nz.w n) 0) eqn:E3; cmp; simpl; [left; split; auto|].
  destruct (leb (Nz.h n) 0) eqn:E4; cmp; simpl; [left; split; auto|].
  right.
  destruct (gtb (Nz.x n + Nz.w n) 1) eqn:E5; cmp; simpl;
    [left; repeat split; auto; intros [?|?]; lra|].
  destruct (gtb (Nz.y n + Nz.h n) 1) eqn:E6; cmp; simpl;
    [left; repeat split; auto; intros [?|?]; lra|].
  right. repeat split; intros [?|?]; lra.
Qed.



(** C7, as the code has it.  The validation tells two reasons apart, not
    three: one alert for a rectangle out of bounds at the origin or of no
    area ([x < 0], [y < 0], [w <= 0] or [h <= 0]) and a different alert for
    a rectangle that passes those tests and exceeds the far edge
    ([x + w > 1] or [y + h > 1]); no other reason is reported. *)
Theorem validate_two_reasons (n : Nz.t) :
  (validate n = Rejected msg_within <-> originOut n \/ degenerate n) /\
  (validate n = Rejected msg_fit <->
     ~ originOut n /\ ~ degenerate n /\ farEdge n) /\
  (forall m, validate n = Rejected m -> m = msg_within \/ m = msg_fit) /\
  msg_within <> msg_fit.
Proof.
  pose proof msg_within_fit as D.
  assert (I : forall a b : string, Rejected a = Rejected b -> a = b)
    by (intros a b Hab; now injection Hab).
  destruct (validate_cases n) as [[E C]|[[E C]|[E C]]]; rewrite E;
    (split; [|split; [|split]]); trivial.
  - tauto.
  - split; [intro R; apply I in R; congruence | tauto].
  - intros m R. apply I in R. auto.
  - split; [intro R; apply I in R; congruence | tauto].
  - tauto.
  - intros m R. apply I in R. auto.
  - split; [discriminate | tauto].
  - split; [discriminate | tauto].
  - discriminate.
Qed.

(** C7, counterexample.  A rectangle wrong only at the origin and a
    rectangle wrong only by its zero width are rejected with the same
    reason. *)
Lemma origin_and_degenerate_share_reason :
  (originOut originOnly /\ ~ degenerate originOnly /\ ~ farEdge originOnly) /\
  (degenerate degenerateOnly /\ ~ originOut degenerateOnly /\
     ~ farEdge degenerateOnly) /\
  validate originOnly = validate degenerateOnly.
Proof.
  unfold originOut, degenerate, farEdge, originOnly, degenerateOnly; simpl.
  repeat split; try (left; lra); try (intros [?|?]; lra).
Qed.

(** ** Corner normalisation *)


(** ** Drawing *)

Lemma move_while_drawing (q : Point) (s : Primary.State) (r : Px.t) :
  Primary.rect s = Some r ->
  Primary.isDrawing s = true ->
  Primary.handleMouseMove q s =
  Primary.setRect
    (Some (Px.mk (Px.x r) (Px.y r) (px q - Px.x r) (py q - Px.y r))) s.
Proof. intros R D. unfold Primary.handleMouseMove. now rewrite R, D. Qed.

Lemma moves_keep_anchor (ax ay : Q) (moves : list Point) :
  forall s,
    Primary.isDrawing s = true ->
    (exists w h, Primary.rect s = Some (Px.mk ax ay w h)) ->
    let s' := fold_left (fun st q => Primary.handleMouseMove q st) moves s in
    Primary.isDrawing s' = true /\
    Primary.snapshot s' = Primary.snapshot s /\
    exists w h, Primary.rect s' = Some (Px.mk ax ay w h).
Proof.
  induction moves as [|q moves IH]; intros s D (w & h & R); simpl.
  - repeat split; eauto.
  - rewrite (move_while_drawing q s _ R D). cbn [Px.x Px.y].
    destruct (IH (Primary.setRect
                    (Some (Px.mk ax ay (px q - ax) (py q - ay))) s))
      as (A & B & C); simpl; eauto.
Qed.

Lemma drawn_rect (p : Point) (moves : list Point) (s : Primary.State) :
  Primary.snapshot s <> None ->
  let s' := fold_left (fun st q => Primary.handleMouseMove q st) moves
                      (Primary.handleMouseDown p s) in
  let q := releasePoint p moves in
  Primary.isDrawing s' = true /\
  exists w h, Primary.rect s' = Some (Px.mk (px p) (py p) w h) /\
              w == px q - px p /\ h == py q - py p /\
              (forall between last, moves = between ++ [last] ->
                 w = px last - px p /\ h = py last - py p).
Proof.
  intros S. cbv zeta.
  assert (D : Primary.handleMouseDown p s =
              Primary.setRect (Some (Px.mk (px p) (py p) 0 0))
                              (Primary.setIsDrawing true s)).
  { unfold Primary.handleMouseDown. destruct (Primary.snapshot s); congruence. }
  rewrite D. clear D.
  destruct moves as [|m ms] using rev_ind.
  - simpl. split; [reflexivity|]. exists 0, 0. unfold releasePoint. simpl.
    split; [reflexivity|]. split; [lra|]. split; [lra|].
    intros [|? ?] ? ?; discriminate.
  - rewrite fold_left_app. cbn [fold_left].
    unfold releasePoint. rewrite last_last.
    pose proof (moves_keep_anchor (px p) (py p) ms
                  (Primary.setRect (Some (Px.mk (px p) (py p) 0 0))
                                   (Primary.setIsDrawing true s))
                  eq_refl (ex_intro _ 0 (ex_intro _ 0 eq_refl))) as K.
    cbv zeta in K. destruct K as (A & _ & w & h & R).
    rewrite (move_while_drawing m _ _ R A).
    cbn [Primary.rect Primary.setRect Primary.isDrawing Px.x Px.y].
    split; [exact A|]. do 2 eexists. split; [reflexivity|].
    split; [reflexivity|]. split; [reflexivity|].
    intros between l E. apply app_inj_tail in E. destruct E as [_ ->].
    split; reflexivity.
Qed.




(** ** Saving *)

Lemma legacy_rect_needs_snapshot (es : list Legacy.Event) :
  forall s s',
    (Legacy.rect s <> None -> Legacy.snapshot s <> None) ->
    Legacy.run s es = Some s' ->
    Legacy.rect s' <> None -> Legacy.snapshot s' <> None.
Proof.
  induction es as [|e es IH]; intros s s' I R.
  - injection R as <-. exact I.
  - simpl in R. destruct (Legacy.step s e) as [s1|] eqn:E; [|discriminate].
    apply (IH s1 s'); [|exact R].
    destruct e; simpl in E.
    + injection E as <-. simpl. discriminate.
    + destruct (Legacy.snapshot s) eqn:F; [|discriminate].
      injection E as <-. simpl. rewrite F. discriminate.
    + destruct (Legacy.snapshot s) eqn:F; [|discriminate].
      injection E as <-. unfold Legacy.handleMouseMove.
      destruct (Legacy.rect s); simpl; rewrite F; discriminate.
    + destruct (Legacy.snapshot s) eqn:F; [|discriminate].
      injection E as <-. unfold Legacy.handleMouseUp. rewrite F. discriminate.
Qed.

(** C8. Without a candidate rectangle, or without a snapshot, [handleSave]
    returns at its first guard: no request, no alert, the state as it was.
    On the gate-keyed editor the guard tests the rectangle only, and a
    rectangle exists only once the snapshot has been loaded. *)
Theorem save_without_rect_is_noop :
  (forall put s,
     Primary.rect s = None \/ Primary.snapshot s = None ->
     Primary.handleSave put s = (s, []) /\
     Primary.handle Primary.ClickSave s = (s, [])) /\
  (forall post es s,
     Legacy.run Legacy.initial es = Some s ->
     Legacy.rect s = None \/ Legacy.snapshot s = None ->
     Legacy.handleSave post s = (s, [])).
Proof.
  split.
  - intros put s H.
    assert (E : Primary.handleSave_start s = Primary.Skip).
    { unfold Primary.handleSave_start.
      destruct H as [-> | H]; [reflexivity|].
      rewrite H. now destruct (Primary.rect s). }
    unfold Primary.handleSave, Primary.handle. now rewrite E.
  - intros post es s R H.
    assert (N : Legacy.rect s = None).
    { destruct H as [H|H]; [exact H|].
      destruct (Legacy.rect s) eqn:E; [|reflexivity]. exfalso.
      apply (legacy_rect_needs_snapshot es Legacy.initial s); trivial.
      - simpl. congruence.
      - congruence. }
    unfold Legacy.handleSave. now rewrite N.
Qed.

Lemma save_without_rect_is_noop_witness :
  (Primary.handleSave putAcks loadedPrimary = (loadedPrimary, []) /\
   Primary.handle Primary.ClickSave loadedPrimary = (loadedPrimary, [])) /\
  Legacy.handleSave postAcks (Legacy.mkState (Some img800) None)
  = (Legacy.mkState (Some img800) None, []).
Proof.
  split.
  - apply (proj1 save_without_rect_is_noop putAcks loadedPrimary).
    left. reflexivity.
  - apply (proj2 save_without_rect_is_noop postAcks
                 [Legacy.SnapshotLoaded img800]).
    + reflexivity.
    + left. reflexivity.
Defined.

(** C3. [handleSave] writes the cached ROI only in the branch that follows
    an acknowledged [PUT], and writes the body that was sent; when the
    [PUT] fails the whole state, so the cached ROI and the candidate
    rectangle too, is what it was before the call.  The same holds when
    the failure arrives after other events.  The gate-keyed editor has no
    cached ROI and its [handleSave] never writes the state. *)
Theorem save_commits_only_on_ack :
  (forall put s,
     (forall cam n, Primary.handleSave_start s = Primary.Send cam n ->
                    put cam n <> Primary.Acked) ->
     fst (Primary.handleSave put s) = s) /\
  (forall put s cam n,
     Primary.handleSave_start s = Primary.Send cam n ->
     put cam n = Primary.Acked ->
     Primary.roiNormalized (fst (Primary.handleSave put s)) = Some n) /\
  (forall put s cam n d,
     Primary.handleSave_start s = Primary.Send cam n ->
     put cam n = Primary.Failed d ->
     let s' := fst (Primary.handleSave put s) in
     s' = s /\ Primary.roiNormalized s' = Primary.roiNormalized s /\
     Primary.rect s' = Primary.rect s) /\
  (forall w w' cam n d,
     Primary.step w (Primary.SaveSettled cam n (Primary.Failed d)) = Some w' ->
     Primary.ui w' = Primary.ui w) /\
  (forall w w',
     Primary.step w Primary.ClickSave = Some w' ->
     Primary.ui w' = Primary.ui w) /\
  (forall post s, fst (Legacy.handleSave post s) = s).
Proof.
  assert (A : forall put s cam n d,
             Primary.handleSave_start s = Primary.Send cam n ->
             put cam n = Primary.Failed d ->
             fst (Primary.handleSave put s) = s).
  { intros put s cam n d E F. unfold Primary.handleSave.
    rewrite E, F. reflexivity. }
  repeat split.
  - intros put s H. unfold Primary.handleSave.
    destruct (Primary.handleSave_start s) as [| m | cam n] eqn:E;
      try reflexivity.
    specialize (H cam n eq_refl).
    destruct (put cam n); [congruence | reflexivity].
  - intros put s cam n E K. unfold Primary.handleSave. rewrite E, K.
    cbn [Primary.handleSave_settle fst]. unfold Primary.onSnapshotOrRoi.
    cbn [Primary.setRoiNormalized Primary.snapshot Primary.roiNormalized].
    now destruct (Primary.snapshot s).
  - now apply A with (cam := cam) (n := n) (d := d).
  - cbv zeta. now rewrite (A put s cam n d).
  - cbv zeta. now rewrite (A put s cam n d).
  - intros w w' cam n d H. unfold Primary.step in H.
    cbn [Primary.answers] in H.
    destruct (Primary.answer _ _); [|discriminate].
    injection H as <-. reflexivity.
  - intros w w' H. unfold Primary.step in H. cbn [Primary.answers] in H.
    injection H as <-. cbn [Primary.ui Primary.handle].
    now destruct (Primary.handleSave_start (Primary.ui w)).
  - intros post s. unfold Legacy.handleSave.
    now destruct (Legacy.rect s).
Qed.

Lemma save_commits_only_on_ack_witness :
  fst (Primary.handleSave putFails drawnPrimary) = drawnPrimary /\
  Primary.roiNormalized (fst (Primary.handleSave putAcks drawnPrimary))
  = Some (toNormalized (Px.mk 80 60 160 120) img800).
Proof.
  split.
  - apply (proj1 save_commits_only_on_ack putFails drawnPrimary).
    intros cam n _. discriminate.
  - apply (proj1 (proj2 save_commits_only_on_ack) putAcks drawnPrimary 1%Z).
    + reflexivity.
    + reflexivity.
Defined.

(** C10. The readout under the stage and the body that [handleSave] sends
    are the same function of the rectangle and the snapshot. *)
Theorem readout_is_payload (s : Primary.State) :
  (forall r img,
     Primary.rect s = Some r -> Primary.snapshot s = Some img ->
     Primary.normalizedValues s = Some (toNormalized r img)) /\
  (forall cam n,
     Primary.handleSave_start s = Primary.Send cam n ->
     Primary.normalizedValues s = Some n) /\
  (forall put cam n ct,
     In (Primary.PutRoi cam n ct) (snd (Primary.handleSave put s)) ->
     Primary.normalizedValues s = Some n).
Proof.
  assert (A : forall cam n,
             Primary.handleSave_start s = Primary.Send cam n ->
             Primary.normalizedValues s = Some n).
  { intros cam n. unfold Primary.handleSave_start, Primary.normalizedValues.
    destruct (Primary.rect s) as [r|]; [|discriminate].
    destruct (Primary.snapshot s) as [img|]; [|discriminate].
    destruct (Primary.selectedCameraId s) as [c|]; [|discriminate].
    destruct (c =? 0)%Z; [discriminate|].
    destruct (validate (toNormalized r img)); [|discriminate].
    intro H. injection H as _ <-. reflexivity. }
  split; [|split].
  - intros r img R S. unfold Primary.normalizedValues. now rewrite R, S.
  - exact A.
  - intros put cam n ct. unfold Primary.handleSave.
    destruct (Primary.handleSave_start s) as [| m | c b] eqn:E.
    + intros [].
    + intros [H|[]]. discriminate.
    + cbn [snd]. intros [H|H].
      * injection H as -> -> _. now apply (A cam).
      * exfalso. destruct (put c b); cbn in H; intuition discriminate.
Qed.

Lemma readout_is_payload_witness :
  Primary.normalizedValues drawnPrimary
  = Some (toNormalized (Px.mk 80 60 160 120) img800).
Proof.
  apply (proj1 (readout_is_payload drawnPrimary)); reflexivity.
Defined.

(** ** What is sent to the persistence endpoint *)









(** ** Responses and camera selection *)

Lemma select_owned (cam : Z) (w : Primary.World) (e : Primary.Event)
      (rest : list Primary.Request) (lg : list Primary.Effect) :
  (forall c i, e <> Primary.SnapshotLoaded c i) ->
  (forall c r, e <> Primary.RoiLoaded c r) ->
  (forall c b, e <> Primary.SaveSettled c b Primary.Acked) ->
  forall s,
    Primary.selectedCameraId s = Primary.selectedCameraId (Primary.ui w) ->
    Primary.snapshot s = Primary.snapshot (Primary.ui w) ->
    Primary.roiNormalized s = Primary.roiNormalized (Primary.ui w) ->
    Primary.owned w ->
    let s' := fst (Primary.selectCamera cam s) in
    Primary.owned
      (Primary.mkWorld s' rest lg
         (Primary.snapshotWriter e s' (Primary.snapshotOf w))
         (Primary.roiWriter e s' (Primary.roiOf w))).
Proof.
  intros N1 N2 N3 s Es Ei Er O. cbv zeta.
  assert (W1 : forall t, Primary.snapshot t <> None ->
                 Primary.snapshotWriter e t (Primary.snapshotOf w)
                 = Primary.snapshotOf w).
  { intros t H. unfold Primary.snapshotWriter.
    destruct (Primary.snapshot t); [|congruence].
    destruct e; try reflexivity. exfalso. now apply (N1 cam0 img). }
  assert (W2 : forall t, Primary.roiNormalized t <> None ->
                 Primary.roiWriter e t (Primary.roiOf w) = Primary.roiOf w).
  { intros t H. unfold Primary.roiWriter.
    destruct (Primary.roiNormalized t); [|congruence].
    destruct e; try reflexivity.
    - exfalso. now apply (N2 cam0 roi).
    - destruct o; [|reflexivity]. exfalso. now apply (N3 cam0 body). }
  unfold Primary.selectCamera, Primary.onSelectedCameraId.
  cbn [Primary.selectedCameraId Primary.setSelectedCameraId].
  intros c. cbn [Primary.ui Primary.snapshotOf Primary.roiOf].
  destruct (Primary.selectedCameraId s) as [old|] eqn:Sel.
  - destruct (old =? cam)%Z eqn:Q.
    + cbn [fst]. intros Hc Hz. rewrite Sel in Hc. injection Hc as ->.
      destruct (O c) as [A B]; [congruence | exact Hz |].
      split; intro H.
      * rewrite W1 by exact H. apply A. congruence.
      * rewrite W2 by exact H. apply B. congruence.
    + destruct (cam =? 0)%Z eqn:Z0; cbn.
      * intros Hc Hz. injection Hc as <-. apply Z.eqb_eq in Z0. contradiction.
      * intros _ _. split; intro H; congruence.
  - destruct (cam =? 0)%Z eqn:Z0; cbn.
    + intros Hc Hz. injection Hc as <-. apply Z.eqb_eq in Z0. contradiction.
    + intros _ _. split; intro H; congruence.
Qed.

Lemma gestures_same_session (p : Point) (s : Primary.State) :
  sameSession s (Primary.handleMouseDown p s) /\
  sameSession s (Primary.handleMouseMove p s) /\
  sameSession s (Primary.handleMouseUp s) /\
  sameSession s (Primary.handleDragEnd p s) /\
  sameSession s (fst (Primary.handle Primary.ClickSave s)).
Proof.
  unfold sameSession, Primary.handleMouseDown, Primary.handleMouseMove,
    Primary.handleMouseUp, Primary.handleDragEnd.
  cbn [Primary.handle].
  destruct (Primary.snapshot s) eqn:E1; destruct (Primary.rect s) eqn:E2;
    destruct (Primary.isDrawing s) eqn:E3;
    destruct (Primary.handleSave_start s); cbn; rewrite ?E1; repeat split.
Qed.

Lemma step_owned (w w' : Primary.World) (e : Primary.Event) :
  Primary.owned w ->
  Primary.timely (Primary.ui w) e ->
  Primary.step w e = Some w' ->
  Primary.owned w'.
Proof.
  intros O T S. unfold Primary.step in S.
  destruct (match Primary.answers e with
            | Some q => Primary.answer q (Primary.inflight w)
            | None => Some (Primary.inflight w)
            end) as [rest|]; [|discriminate].
  injection S as <-.
  assert (K : forall s',
             Primary.selectedCameraId s'
               = Primary.selectedCameraId (Primary.ui w) ->
             (Primary.snapshot s' <> None ->
                Primary.snapshot (Primary.ui w) <> None) ->
             (Primary.roiNormalized s' <> None ->
                Primary.roiNormalized (Primary.ui w) <> None) ->
             (forall c i, e <> Primary.SnapshotLoaded c i) ->
             (forall c r, e <> Primary.RoiLoaded c r) ->
             (forall c b, e <> Primary.SaveSettled c b Primary.Acked) ->
             forall l g,
               Primary.owned
                 (Primary.mkWorld s' l g
                    (Primary.snapshotWriter e s' (Primary.snapshotOf w))
                    (Primary.roiWriter e s' (Primary.roiOf w)))).
  { intros s' Es Ei Er N1 N2 N3 l g c.
    cbn [Primary.ui Primary.snapshotOf Primary.roiOf].
    intros Hc Hz. rewrite Es in Hc. destruct (O c Hc Hz) as [A B].
    unfold Primary.snapshotWriter, Primary.roiWriter. split; intro H.
    - destruct (Primary.snapshot s'); [|congruence].
      destruct e; try (apply A, Ei; discriminate).
      exfalso. now apply (N1 cam img).
    - destruct (Primary.roiNormalized s'); [|congruence].
      destruct e; try (apply B, Er; discriminate).
      + exfalso. now apply (N2 cam roi).
      + destruct o; [|apply B, Er; discriminate].
        exfalso. now apply (N3 cam body). }
  destruct e; cbn [Primary.handle fst snd];
    try (apply K; try discriminate; try reflexivity; auto; fail).
  - (* CamerasLoaded *)
    unfold Primary.camerasLoaded. destruct cams as [|c0 cs].
    + apply K; try discriminate; try reflexivity; auto.
    + apply select_owned; try discriminate; try reflexivity; exact O.
  - (* SelectCamera *)
    apply select_owned; try discriminate; try reflexivity; exact O.
  - (* SnapshotLoaded *)
    cbn [Primary.timely] in T. intros c.
    cbn [Primary.ui Primary.snapshotOf Primary.roiOf].
    unfold Primary.snapshotLoaded, Primary.onSnapshotOrRoi,
      Primary.snapshotWriter, Primary.roiWriter.
    cbn [Primary.snapshot Primary.setSnapshot Primary.roiNormalized].
    destruct (Primary.roiNormalized (Primary.ui w)) eqn:Er; cbn;
      rewrite ?Er; intros Hc Hz; rewrite T in Hc; injection Hc as <-;
      (split; [reflexivity|]); intro H; try congruence.
    destruct (O cam T Hz) as [_ B]. apply B. rewrite Er. discriminate.
  - (* RoiLoaded *)
    cbn [Primary.timely] in T. intros c.
    cbn [Primary.ui Primary.snapshotOf Primary.roiOf].
    unfold Primary.roiLoaded, Primary.onSnapshotOrRoi,
      Primary.snapshotWriter, Primary.roiWriter.
    cbn [Primary.snapshot Primary.setRoiNormalized Primary.roiNormalized].
    destruct (Primary.snapshot (Primary.ui w)) eqn:Ei; cbn;
      rewrite ?Ei; intros Hc Hz; rewrite T in Hc; injection Hc as <-;
      (split; [|reflexivity]); intro H; try congruence.
    destruct (O cam T Hz) as [A _]. apply A. rewrite Ei. discriminate.
  - (* MouseDown *)
    destruct (gestures_same_session p (Primary.ui w))
      as ((A & B & C) & _).
    apply K; try discriminate; rewrite ?A, ?B, ?C; auto.
  - (* MouseMove *)
    destruct (gestures_same_session p (Primary.ui w))
      as (_ & (A & B & C) & _).
    apply K; try discriminate; rewrite ?A, ?B, ?C; auto.
  - (* MouseUp *)
    destruct (gestures_same_session (mkPoint 0 0) (Primary.ui w))
      as (_ & _ & (A & B & C) & _).
    apply K; try discriminate; rewrite ?A, ?B, ?C; auto.
  - (* DragEnd *)
    destruct (gestures_same_session p (Primary.ui w))
      as (_ & _ & _ & (A & B & C) & _).
    apply K; try discriminate; rewrite ?A, ?B, ?C; auto.
  - (* ClickSave *)
    destruct (gestures_same_session (mkPoint 0 0) (Primary.ui w))
      as (_ & _ & _ & _ & (A & B & C)).
    cbn [Primary.handle] in A, B, C.
    apply K; try discriminate; rewrite ?A, ?B, ?C; auto.
  - (* SaveSettled *)
    cbn [Primary.timely] in T. destruct o.
    + intros c. cbn [Primary.ui Primary.snapshotOf Primary.roiOf].
      unfold Primary.handleSave_settle, Primary.onSnapshotOrRoi,
        Primary.snapshotWriter, Primary.roiWriter.
      cbn [Primary.snapshot Primary.setRoiNormalized Primary.roiNormalized
           fst].
      destruct (Primary.snapshot (Primary.ui w)) eqn:Ei; cbn;
        rewrite ?Ei; intros Hc Hz; rewrite T in Hc; injection Hc as <-;
        (split; [|reflexivity]); intro H; try congruence.
      destruct (O cam T Hz) as [A _]. apply A. rewrite Ei. discriminate.
    + apply K; try discriminate; auto.
Qed.

Lemma run_owned (es : list Primary.Event) :
  forall w w',
    Primary.owned w ->
    Primary.allTimely w es ->
    Primary.run w es = Some w' ->
    Primary.owned w'.
Proof.
  induction es as [|e es IH]; intros w w' O T R.
  - injection R as <-. exact O.
  - cbn [Primary.run] in R. cbn [Primary.allTimely] in T.
    destruct T as [Te Ts].
    destruct (Primary.step w e) as [w1|] eqn:E; [|discriminate].
    apply (IH w1 w'); trivial. now apply (step_owned w w1 e).
Qed.

(** C2, as the code has it.  Each fetch is issued with the identifier of
    the camera selected at that moment, and a selection of another camera
    clears snapshot, rectangle and cached ROI; a response is applied when
    it arrives, with no test against the current selection.  So the
    snapshot and the cached ROI belong to the selected camera in every
    session in which each response arrives while the camera it was
    requested for is still selected. *)
Theorem timely_responses_owned :
  (forall es w,
     Primary.allTimely Primary.mounted es ->
     Primary.run Primary.mounted es = Some w ->
     Primary.owned w) /\
  (forall cam s,
     cam <> 0%Z -> Primary.selectedCameraId s <> Some cam ->
     let r := Primary.selectCamera cam s in
     snd r = [Primary.GetSnapshot cam; Primary.GetRoi cam] /\
     Primary.selectedCameraId (fst r) = Some cam /\
     Primary.snapshot (fst r) = None /\ Primary.rect (fst r) = None /\
     Primary.roiNormalized (fst r) = None) /\
  (forall cam img s,
     Primary.snapshot (fst (Primary.handle (Primary.SnapshotLoaded cam img) s))
     = Some img) /\
  (forall cam roi s,
     Primary.roiNormalized (fst (Primary.handle (Primary.RoiLoaded cam roi) s))
     = Some roi).
Proof.
  split; [|split; [|split]].
  - intros es w T R. apply (run_owned es Primary.mounted w); trivial.
    intros c H. discriminate.
  - intros cam s Z0 N. cbv zeta.
    unfold Primary.selectCamera, Primary.onSelectedCameraId.
    cbn [Primary.selectedCameraId Primary.setSelectedCameraId].
    apply Z.eqb_neq in Z0.
    destruct (Primary.selectedCameraId s) as [old|].
    + destruct (old =? cam)%Z eqn:Q.
      * apply Z.eqb_eq in Q. congruence.
      * rewrite Z0. cbn. repeat split.
    + rewrite Z0. cbn. repeat split.
  - intros cam img s. cbn [Primary.handle fst].
    unfold Primary.snapshotLoaded, Primary.onSnapshotOrRoi.
    cbn [Primary.snapshot Primary.setSnapshot Primary.roiNormalized].
    now destruct (Primary.roiNormalized s).
  - intros cam roi s. cbn [Primary.handle fst].
    unfold Primary.roiLoaded, Primary.onSnapshotOrRoi.
    cbn [Primary.snapshot Primary.setRoiNormalized Primary.roiNormalized].
    now destruct (Primary.snapshot s).
Qed.

Lemma timely_responses_owned_witness :
  Primary.run Primary.mounted timelyTrace = Some timelyWorld /\
  Primary.selectedCameraId (Primary.ui timelyWorld) = Some 2%Z /\
  Primary.snapshot (Primary.ui timelyWorld) = Some img2 /\
  Primary.snapshotOf timelyWorld = Some 2%Z /\
  Primary.owned timelyWorld.
Proof.
  split; [vm_compute; reflexivity|].
  split; [reflexivity|]. split; [reflexivity|]. split; [reflexivity|].
  apply (proj1 timely_responses_owned timelyTrace).
  - vm_compute. repeat split.
  - vm_compute. reflexivity.
Defined.

(** C2, counterexample.  Camera 1 is selected, then camera 2 before the
    responses for camera 1 have arrived.  The snapshot of camera 2 arrives
    and is shown; then the snapshot and the ROI of camera 1 arrive: the
    editor now holds the snapshot, the cached ROI and the rectangle of
    camera 1 with camera 2 selected. *)
Lemma stale_snapshot_overwrites :
  Primary.run Primary.mounted switchTrace = Some switchWorld /\
  Primary.selectedCameraId (Primary.ui switchWorld) = Some 2%Z /\
  Primary.snapshot (Primary.ui switchWorld) = Some img2 /\
  Primary.run Primary.mounted staleTrace = Some staleWorld /\
  Primary.selectedCameraId (Primary.ui staleWorld) = Some 2%Z /\
  Primary.snapshot (Primary.ui staleWorld) = Some img1 /\
  Primary.roiNormalized (Primary.ui staleWorld) = Some roi1 /\
  Primary.rect (Primary.ui staleWorld) = Some (toPixel roi1 img1) /\
  Primary.snapshotOf staleWorld = Some 1%Z /\
  Primary.roiOf staleWorld = Some 1%Z /\
  ~ Primary.owned staleWorld.
Proof.
  split; [vm_compute; reflexivity|].
  split; [reflexivity|]. split; [reflexivity|].
  split; [vm_compute; reflexivity|].
  split; [reflexivity|]. split; [reflexivity|]. split; [reflexivity|].
  split; [reflexivity|]. split; [reflexivity|]. split; [reflexivity|].
  intro O. destruct (O 2%Z eq_refl) as [A _]; [discriminate|].
  cbn in A. specialize (A ltac:(discriminate)). discriminate.
Qed.

(** ** Conversions in exact arithmetic *)



(** [toNormalized] of [{x:80, y:60, width:160, height:120}] on an 800 by
    600 snapshot is [{x:0.1, y:0.1, w:0.2, h:0.2}]. *)
Lemma toNormalized_example :
  Nz.equiv (toNormalized (Px.mk 80 60 160 120) img800)
           (Nz.mk (1 # 10) (1 # 10) (2 # 10) (2 # 10)).
Proof. unfold Nz.equiv. simpl. repeat split. Qed.

(** ** Further properties of the camera-keyed editor *)

(** X1. [handleClear] drops the candidate rectangle and the cached ROI and
    nothing else, and sends nothing; once cleared, the readout is gone,
    [handleSave] does nothing, and a second clear changes nothing. *)
Theorem clear_is_local (s : Primary.State) :
  let c := Primary.handleClear s in
  Primary.handle Primary.ClickClear s = (c, []) /\
  Primary.rect c = None /\ Primary.roiNormalized c = None /\
  Primary.snapshot c = Primary.snapshot s /\
  Primary.selectedCameraId c = Primary.selectedCameraId s /\
  Primary.cameras c = Primary.cameras s /\
  Primary.isDrawing c = Primary.isDrawing s /\
  Primary.normalizedValues c = None /\
  (forall put, Primary.handleSave put c = (c, [])) /\
  Primary.handleClear c = c /\
  Primary.onSnapshotOrRoi c = c.
Proof.
  cbv zeta. unfold Primary.handleClear.
  repeat split.
  unfold Primary.onSnapshotOrRoi. cbn.
  now destruct (Primary.snapshot s).
Qed.

(** X2. Choosing in the list the camera that is already selected does
    nothing: no reset, no fetch.  So a choice made twice fetches once. *)
Theorem reselect_is_noop (cam : Z) (s : Primary.State) :
  (Primary.selectedCameraId s = Some cam ->
   Primary.selectCamera cam s = (s, [])) /\
  (let s1 := fst (Primary.selectCamera cam s) in
   Primary.selectedCameraId s1 = Some cam /\
   Primary.selectCamera cam s1 = (s1, [])).
Proof.
  assert (A : forall t, Primary.selectedCameraId t = Some cam ->
                        Primary.selectCamera cam t = (t, [])).
  { intros t H. unfold Primary.selectCamera. now rewrite H, Z.eqb_refl. }
  split; [apply A|]. cbv zeta.
  assert (B : Primary.selectedCameraId (fst (Primary.selectCamera cam s))
              = Some cam).
  { unfold Primary.selectCamera, Primary.onSelectedCameraId.
    cbn [Primary.selectedCameraId Primary.setSelectedCameraId].
    destruct (Primary.selectedCameraId s) as [old|] eqn:E.
    - destruct (old =? cam)%Z eqn:Q.
      + apply Z.eqb_eq in Q. cbn [fst]. congruence.
      + now destruct (cam =? 0)%Z.
    - now destruct (cam =? 0)%Z. }
  split; [exact B | now apply A].
Qed.

Lemma reselect_is_noop_witness :
  Primary.selectCamera 1 loadedPrimary = (loadedPrimary, []).
Proof.
  apply (proj1 (reselect_is_noop 1 loadedPrimary)). reflexivity.
Defined.

(** X3. The snapshot and the existing ROI may arrive in either order: the
    state reached is the same, with the rectangle computed from the ROI
    and the snapshot that arrived. *)
Theorem fetches_commute (img : Img.t) (roi : Nz.t) (s : Primary.State) :
  Primary.snapshotLoaded img (Primary.roiLoaded roi s)
  = Primary.roiLoaded roi (Primary.snapshotLoaded img s) /\
  Primary.snapshotLoaded img (Primary.roiLoaded roi s)
  = Primary.mkState (Primary.cameras s) (Primary.selectedCameraId s)
                    (Some img) (Some (toPixel roi img))
                    (Primary.isDrawing s) (Some roi).
Proof.
  unfold Primary.snapshotLoaded, Primary.roiLoaded, Primary.onSnapshotOrRoi.
  destruct s as [cs sel snap rc dr r0]. cbn.
  destruct snap, r0; cbn; split; reflexivity.
Qed.

(** X4. After the release the pointer no longer shapes the rectangle:
    any moves that follow a gesture leave the state as the release left
    it, until the next press. *)
Theorem moves_after_release_ignored
        (p : Point) (moves later : list Point) (s : Primary.State) :
  pointerMoves later (gesture p moves s) = gesture p moves s.
Proof.
  assert (U : forall t q,
             Primary.handleMouseMove q (Primary.handleMouseUp t)
             = Primary.handleMouseUp t).
  { intros t q. unfold Primary.handleMouseUp.
    destruct (Primary.rect t) as [r|] eqn:R.
    - unfold Primary.handleMouseMove. reflexivity.
    - unfold Primary.handleMouseMove. now rewrite R. }
  unfold gesture.
  set (t := fold_left _ moves _). clearbody t. unfold pointerMoves.
  induction later as [|q later IH]; [reflexivity|].
  cbn [fold_left]. now rewrite U.
Qed.

(** X5. When the camera list arrives, the first camera becomes the
    selected one and is the camera shown in the badge; on mount, when no
    camera was selected yet, its snapshot and its ROI are fetched.  An
    empty list selects nothing and fetches nothing. *)
Theorem first_camera_selected :
  (forall c cs s,
     let r := Primary.camerasLoaded (c :: cs) s in
     Primary.cameras (fst r) = c :: cs /\
     Primary.selectedCameraId (fst r) = Some (Primary.id c) /\
     selectedCamera (fst r) = Some c) /\
  (forall c cs s,
     Primary.selectedCameraId s = None -> Primary.id c <> 0%Z ->
     snd (Primary.camerasLoaded (c :: cs) s)
     = [Primary.GetSnapshot (Primary.id c); Primary.GetRoi (Primary.id c)]) /\
  (forall s,
     Primary.camerasLoaded [] s = (Primary.setCameras [] s, []) /\
     Primary.selectedCameraId (Primary.setCameras [] s)
     = Primary.selectedCameraId s /\
     selectedCamera (Primary.setCameras [] s) = None).
Proof.
  split; [|split].
  - intros c cs s. cbv zeta.
    assert (A : Primary.cameras (fst (Primary.camerasLoaded (c :: cs) s))
                = c :: cs /\
                Primary.selectedCameraId
                  (fst (Primary.camerasLoaded (c :: cs) s))
                = Some (Primary.id c)).
    { unfold Primary.camerasLoaded, Primary.selectCamera,
        Primary.onSelectedCameraId.
      cbn [Primary.selectedCameraId Primary.setSelectedCameraId
           Primary.setCameras].
      destruct (Primary.selectedCameraId s) as [old|] eqn:E.
      - destruct (old =? Primary.id c)%Z eqn:Q.
        + apply Z.eqb_eq in Q. cbn. split; congruence.
        + destruct (Primary.id c =? 0)%Z; cbn; split; reflexivity.
      - destruct (Primary.id c =? 0)%Z; cbn; split; reflexivity. }
    destruct A as [A B]. split; [exact A|]. split; [exact B|].
    unfold selectedCamera. rewrite A, B. cbn [find].
    now rewrite Z.eqb_refl.
  - intros c cs s N Z0. apply Z.eqb_neq in Z0.
    unfold Primary.camerasLoaded, Primary.selectCamera,
      Primary.onSelectedCameraId.
    cbn [Primary.selectedCameraId Primary.setSelectedCameraId
         Primary.setCameras].
    now rewrite N, Z0.
  - intro s. unfold selectedCamera. cbn.
    repeat split. now destruct (Primary.selectedCameraId s).
Qed.

Lemma first_camera_selected_witness :
  snd (Primary.camerasLoaded [cam1; cam2] Primary.initial)
  = [Primary.GetSnapshot 1; Primary.GetRoi 1].
Proof.
  apply (proj1 (proj2 first_camera_selected) cam1 [cam2] Primary.initial).
  - reflexivity.
  - discriminate.
Defined.

(** ** Invariants of the sessions *)

Lemma run_state_invariant (P : Primary.State -> Prop) :
  (forall e s, P s -> P (fst (Primary.handle e s))) ->
  forall es w w',
    P (Primary.ui w) -> Primary.run w es = Some w' -> P (Primary.ui w').
Proof.
  intros K es. induction es as [|e es IH]; intros w w' H R.
  - injection R as <-. exact H.
  - cbn [Primary.run] in R.
    destruct (Primary.step w e) as [w1|] eqn:E; [|discriminate].
    apply (IH w1 w'); [|exact R].
    unfold Primary.step in E.
    destruct (match Primary.answers e with
              | Some q => Primary.answer q (Primary.inflight w)
              | None => Some (Primary.inflight w)
              end); [|discriminate].
    injection E as <-. cbn [Primary.ui]. now apply K.
Qed.

Lemma run_log_invariant (P : Primary.Effect -> Prop) :
  (forall e s x, In x (snd (Primary.handle e s)) -> P x) ->
  forall es w w',
    (forall x, In x (Primary.log w) -> P x) ->
    Primary.run w es = Some w' ->
    forall x, In x (Primary.log w') -> P x.
Proof.
  intros K es. induction es as [|e es IH]; intros w w' H R.
  - injection R as <-. exact H.
  - cbn [Primary.run] in R.
    destruct (Primary.step w e) as [w1|] eqn:E; [|discriminate].
    apply (IH w1 w'); [|exact R].
    unfold Primary.step in E.
    destruct (match Primary.answers e with
              | Some q => Primary.answer q (Primary.inflight w)
              | None => Some (Primary.inflight w)
              end); [|discriminate].
    injection E as <-. cbn [Primary.log].
    intros x I. apply in_app_or in I. destruct I as [I|I].
    + now apply H.
    + now apply (K e (Primary.ui w)).
Qed.

Lemma select_keeps_rect_snapshot (cam : Z) (s : Primary.State) :
  (Primary.rect s <> None -> Primary.snapshot s <> None) ->
  Primary.rect (fst (Primary.selectCamera cam s)) <> None ->
  Primary.snapshot (fst (Primary.selectCamera cam s)) <> None.
Proof.
  unfold Primary.selectCamera, Primary.onSelectedCameraId.
  cbn [Primary.selectedCameraId Primary.setSelectedCameraId].
  destruct (Primary.selectedCameraId s) as [old|];
    [destruct (old =? cam)%Z|]; destruct (cam =? 0)%Z; cbn; tauto.
Qed.

Lemma handle_keeps_rect_snapshot (e : Primary.Event) (s : Primary.State) :
  (Primary.rect s <> None -> Primary.snapshot s <> None) ->
  Primary.rect (fst (Primary.handle e s)) <> None ->
  Primary.snapshot (fst (Primary.handle e s)) <> None.
Proof.
  intro P. destruct e; cbn [Primary.handle fst]; try exact P.
  - unfold Primary.camerasLoaded. destruct cams as [|c cs].
    + exact P.
    + now apply select_keeps_rect_snapshot.
  - now apply select_keeps_rect_snapshot.
  - unfold Primary.snapshotLoaded, Primary.onSnapshotOrRoi. cbn.
    destruct (Primary.roiNormalized s); cbn; discriminate.
  - unfold Primary.roiLoaded, Primary.onSnapshotOrRoi. cbn.
    destruct (Primary.snapshot s) eqn:E; cbn; rewrite ?E; trivial.
    discriminate.
  - unfold Primary.handleMouseDown.
    destruct (Primary.snapshot s) eqn:E; cbn; rewrite ?E; trivial.
    discriminate.
  - unfold Primary.handleMouseMove.
    destruct (Primary.rect s) eqn:E; [|rewrite E; exact P].
    destruct (Primary.isDrawing s); cbn; rewrite ?E; trivial.
    intros _. apply P. discriminate.
  - unfold Primary.handleMouseUp.
    destruct (Primary.rect s) eqn:E; [|rewrite E; exact P].
    cbn. intros _. apply P. discriminate.
  - unfold Primary.handleDragEnd.
    destruct (Primary.rect s) eqn:E; [|rewrite E; exact P].
    destruct (Primary.isDrawing s); cbn; rewrite ?E; trivial.
    intros _. apply P. discriminate.
  - now destruct (Primary.handleSave_start s).
  - destruct o; cbn [Primary.handleSave_settle fst]; [|exact P].
    unfold Primary.onSnapshotOrRoi. cbn.
    destruct (Primary.snapshot s) eqn:E; cbn; rewrite ?E; trivial.
    discriminate.
  - cbn. congruence.
Qed.

(** X6. In every session a rectangle is held only together with a
    snapshot: whatever the order of gestures and responses, the readout of
    normalised values is shown exactly when there is a rectangle, and the
    rectangle is never drawn over the loading placeholder. *)
Theorem rect_only_with_snapshot (es : list Primary.Event) (w : Primary.World) :
  Primary.run Primary.mounted es = Some w ->
  (Primary.rect (Primary.ui w) <> None ->
   Primary.snapshot (Primary.ui w) <> None) /\
  (Primary.normalizedValues (Primary.ui w) = None <->
   Primary.rect (Primary.ui w) = None).
Proof.
  intro R.
  assert (I : Primary.rect (Primary.ui w) <> None ->
              Primary.snapshot (Primary.ui w) <> None).
  { apply (run_state_invariant
             (fun s => Primary.rect s <> None -> Primary.snapshot s <> None)
             handle_keeps_rect_snapshot es Primary.mounted w); trivial.
    cbn. congruence. }
  split; [exact I|].
  unfold Primary.normalizedValues.
  destruct (Primary.rect (Primary.ui w)) as [r|].
  - destruct (Primary.snapshot (Primary.ui w)).
    + split; discriminate.
    + exfalso. apply I; [discriminate | reflexivity].
  - split; reflexivity.
Qed.

Lemma rect_only_with_snapshot_witness :
  (Primary.rect (Primary.ui savedWorld) <> None ->
   Primary.snapshot (Primary.ui savedWorld) <> None) /\
  (Primary.normalizedValues (Primary.ui savedWorld) = None <->
   Primary.rect (Primary.ui savedWorld) = None).
Proof.
  apply (rect_only_with_snapshot savingTrace savedWorld).
  vm_compute. reflexivity.
Defined.

Lemma handle_for_camera (e : Primary.Event) (s : Primary.State)
      (x : Primary.Effect) :
  In x (snd (Primary.handle e s)) -> forCamera x.
Proof.
  assert (S : forall cam t y,
             In y (snd (Primary.selectCamera cam t)) -> forCamera y).
  { intros cam t y. unfold Primary.selectCamera, Primary.onSelectedCameraId.
    cbn [Primary.selectedCameraId Primary.setSelectedCameraId].
    destruct (Primary.selectedCameraId t) as [old|];
      [destruct (old =? cam)%Z|]; destruct (cam =? 0)%Z eqn:Z0; cbn;
      try tauto; apply Z.eqb_neq in Z0;
      intros [<-|[<-|[]]]; exact Z0. }
  destruct e; cbn [Primary.handle snd];
    try (intros []; fail);
    try (cbn; intros [<-|[]]; exact I).
  - unfold Primary.camerasLoaded. destruct cams as [|c cs].
    + intros [].
    + apply S.
  - apply S.
  - unfold Primary.roiFailed.
    destruct status as [code|]; [destruct (code =? 404)%Z|]; cbn;
      try tauto; intros [<-|[]]; exact I.
  - unfold Primary.handleSave_start.
    destruct (Primary.rect s); [|intros []].
    destruct (Primary.snapshot s); [|intros []].
    destruct (Primary.selectedCameraId s) as [cam|]; [|intros []].
    destruct (cam =? 0)%Z eqn:Z0; [intros []|]. apply Z.eqb_neq in Z0.
    destruct (validate _); cbn; intros [<-|[]]; [exact Z0 | exact I].
  - destruct o; cbn.
    + intros [<-|[]]. exact I.
    + intros [<-|[<-|[]]]; exact I.
Qed.

(** X7. No request is ever made for camera [0] or without a selection:
    in every session each snapshot fetch, ROI fetch and [PUT] that has
    been issued names a non-zero camera identifier. *)
Theorem requests_name_a_camera
        (es : list Primary.Event) (w : Primary.World) (x : Primary.Effect) :
  Primary.run Primary.mounted es = Some w ->
  In x (Primary.log w) -> forCamera x.
Proof.
  intros R. apply (run_log_invariant forCamera handle_for_camera
                     es Primary.mounted w); [|exact R].
  cbn. intros y [<-|[]]. exact I.
Qed.

Lemma requests_name_a_camera_witness :
  forCamera (Primary.GetSnapshot 1).
Proof.
  apply (requests_name_a_camera savingTrace savedWorld).
  - vm_compute. reflexivity.
  - vm_compute. right. left. reflexivity.
Defined.

(** ** From the gesture to the request *)

Lemma dimension_positive (p : positive) : 0 < inject_Z (Z.pos p).
Proof. unfold Qlt, inject_Z. simpl. lia. Qed.



Lemma validate_within_of (n : Nz.t) :
  originOut n \/ degenerate n -> validate n = Rejected msg_within.
Proof.
  intro C. destruct (validate_cases n) as [[E _]|[[_ D]|[_ D]]];
    [exact E | tauto | tauto].
Qed.



Lemma same_session_trans (a b c : Primary.State) :
  sameSession a b -> sameSession b c -> sameSession a c.
Proof.
  unfold sameSession. intros (A1 & A2 & A3) (B1 & B2 & B3).
  repeat split; congruence.
Qed.

Lemma moves_same_session (moves : list Point) :
  forall s, sameSession s (pointerMoves moves s).
Proof.
  unfold pointerMoves.
  induction moves as [|q moves IH]; intro s; cbn [fold_left].
  - unfold sameSession. repeat split.
  - apply (same_session_trans s (Primary.handleMouseMove q s)); [|apply IH].
    apply (gestures_same_session q s).
Qed.

Lemma gesture_same_session (p : Point) (moves : list Point)
      (s : Primary.State) :
  sameSession s (gesture p moves s).
Proof.
  unfold gesture.
  apply (same_session_trans s (Primary.handleMouseDown p s));
    [apply (gestures_same_session p s)|].
  apply (same_session_trans _ (pointerMoves moves
                                 (Primary.handleMouseDown p s)));
    [apply moves_same_session|].
  apply (gestures_same_session p).
Qed.

(** The rectangle a gesture leaves, in terms of its two end points. *)
Lemma gesture_rect (p : Point) (moves : list Point) (s : Primary.State) :
  Primary.snapshot s <> None ->
  exists w h,
    Primary.rect (gesture p moves s)
    = Some (Px.mk (Qmin (px p) (px p + w)) (Qmin (py p) (py p + h))
                  (Qabs w) (Qabs h)) /\
    w == px (releasePoint p moves) - px p /\
    h == py (releasePoint p moves) - py p.
Proof.
  intro S. destruct (drawn_rect p moves s S) as (_ & w & h & R & W & H & _).
  exists w, h. split; [|split; assumption].
  unfold gesture, Primary.handleMouseUp. rewrite R. reflexivity.
Qed.

Lemma start_of_ready (s : Primary.State) (cam : Z) (img : Img.t)
      (r : Px.t) :
  ready s cam img -> Primary.rect s = Some r ->
  Primary.handleSave_start s
  = match validate (toNormalized r img) with
    | Rejected m => Primary.Abort m
    | Ok => Primary.Send cam (toNormalized r img)
    end.
Proof.
  intros (Sel & Z0 & Sn) R. unfold Primary.handleSave_start.
  rewrite R, Sn, Sel. apply Z.eqb_neq in Z0. now rewrite Z0.
Qed.

Lemma ready_same_session (s s' : Primary.State) (cam : Z) (img : Img.t) :
  sameSession s s' -> ready s cam img -> ready s' cam img.
Proof.
  unfold sameSession, ready. intros (A & B & _) (Sel & Z0 & Sn).
  repeat split; congruence.
Qed.



(** X9. A gesture without extent is refused before any request: with a
    camera selected and its snapshot loaded, a click (press and release
    at the same abscissa or at the same ordinate) leaves a rectangle that
    [handleSave] rejects with the first alert; no [PUT], state kept. *)
Theorem click_is_refused
        (put : Z -> Nz.t -> Primary.PutOutcome)
        (s : Primary.State) (cam : Z) (img : Img.t)
        (p : Point) (moves : list Point) :
  ready s cam img ->
  px (releasePoint p moves) == px p \/ py (releasePoint p moves) == py p ->
  Primary.handleSave put (gesture p moves s)
  = (gesture p moves s, [Primary.Alert msg_within]).
Proof.
  intros Rd D. set (q := releasePoint p moves) in *.
  pose proof (dimension_positive (Img.width img)) as HW.
  pose proof (dimension_positive (Img.height img)) as HH.
  assert (S : Primary.snapshot s <> None)
    by (destruct Rd as (_ & _ & E); congruence).
  destruct (gesture_rect p moves s S) as (w & h & R & W & H).
  fold q in W, H.
  assert (Rd' : ready (gesture p moves s) cam img)
    by (apply (ready_same_session s); [apply gesture_same_session | exact Rd]).
  unfold Primary.handleSave.
  rewrite (start_of_ready _ cam img _ Rd' R).
  rewrite validate_within_of; [reflexivity|].
  right. unfold degenerate.
  cbn [toNormalized Nz.w Nz.h Px.width Px.height].
  destruct D as [D|D]; [left|right].
  - assert (E : Qabs w == 0) by (rewrite W, D; setoid_replace (px p - px p) with 0 by ring; reflexivity).
    rewrite E. unfold Qdiv. rewrite Qmult_0_l. lra.
  - assert (E : Qabs h == 0) by (rewrite H, D; setoid_replace (py p - py p) with 0 by ring; reflexivity).
    rewrite E. unfold Qdiv. rewrite Qmult_0_l. lra.
Qed.

Lemma click_is_refused_witness :
  Primary.handleSave putAcks (gesture cornerA [] loadedPrimary)
  = (gesture cornerA [] loadedPrimary, [Primary.Alert msg_within]).
Proof.
  apply (click_is_refused putAcks loadedPrimary 1 img800 cornerA []).
  - repeat split. discriminate.
  - left. simpl. reflexivity.
Defined.




Lemma both_loaded (img : Img.t) (roi : Nz.t) (s : Primary.State) :
  Primary.roiLoaded roi (Primary.snapshotLoaded img s)
  = Primary.mkState (Primary.cameras s) (Primary.selectedCameraId s)
                    (Some img) (Some (toPixel roi img))
                    (Primary.isDrawing s) (Some roi).
Proof.
  unfold Primary.snapshotLoaded, Primary.roiLoaded, Primary.onSnapshotOrRoi.
  destruct s as [cs sel snap rc dr r0]. cbn.
  destruct r0; reflexivity.
Qed.

(** X11. A change of camera does not end a drawing in progress: the
    selection effect resets snapshot, rectangle and cached ROI and leaves
    [isDrawing] as it is.  If the button was never released on the stage,
    then once the new camera's snapshot and ROI have arrived the first
    pointer move, with no press, resizes the loaded rectangle. *)
Theorem selection_keeps_drawing
        (s : Primary.State) (cam : Z) (img : Img.t) (roi : Nz.t) (q : Point) :
  let s1 := fst (Primary.selectCamera cam s) in
  let s2 := Primary.roiLoaded roi (Primary.snapshotLoaded img s1) in
  Primary.isDrawing s1 = Primary.isDrawing s /\
  Primary.isDrawing s2 = Primary.isDrawing s /\
  (Primary.isDrawing s = true ->
   Primary.rect (Primary.handleMouseMove q s2)
   = Some (Px.mk (Px.x (toPixel roi img)) (Px.y (toPixel roi img))
                 (px q - Px.x (toPixel roi img))
                 (py q - Px.y (toPixel roi img)))) /\
  (Primary.isDrawing s = false ->
   Primary.rect (Primary.handleMouseMove q s2) = Some (toPixel roi img)).
Proof.
  cbv zeta. rewrite both_loaded.
  assert (E : Primary.isDrawing (fst (Primary.selectCamera cam s))
              = Primary.isDrawing s).
  { unfold Primary.selectCamera, Primary.onSelectedCameraId.
    cbn [Primary.selectedCameraId Primary.setSelectedCameraId].
    destruct (Primary.selectedCameraId s) as [old|];
      [destruct (old =? cam)%Z|]; destruct (cam =? 0)%Z; reflexivity. }
  cbn [Primary.isDrawing]. rewrite E.
  split; [reflexivity|]. split; [reflexivity|].
  unfold Primary.handleMouseMove.
  cbn [Primary.rect Primary.isDrawing].
  split; intros ->; reflexivity.
Qed.

Lemma selection_keeps_drawing_witness :
  Primary.rect
    (Primary.handleMouseMove cornerB
       (Primary.roiLoaded roi1
          (Primary.snapshotLoaded img2
             (fst (Primary.selectCamera 2 drawingPrimary)))))
  = Some (Px.mk (Px.x (toPixel roi1 img2)) (Px.y (toPixel roi1 img2))
                (px cornerB - Px.x (toPixel roi1 img2))
                (py cornerB - Px.y (toPixel roi1 img2))).
Proof.
  apply (selection_keeps_drawing drawingPrimary 2 img2 roi1 cornerB).
  reflexivity.
Defined.





(** ** Further properties of the gate-keyed editor *)



